(** * Verification of [verify_ui_revamp.py]

    The script drives a headless browser through the Playwright
    synchronous API: it opens a session, launches a browser, opens a
    page, navigates, waits for a text to be visible, takes a screenshot
    and closes the browser.  Everything the script does is a call to the
    library or to [print]; the embedding below therefore keeps

    - the library as a record of outcomes (what each call answers),
    - the world as the chronological log of calls, the texts printed to
      standard output (one for each call of [print]), the file system
      and the state of the browser process,
    - the control flow of the script ([with], [try], [except Exception],
      [finally]) as combinators of a state-and-exception monad. *)

From Stdlib.Strings Require Import Byte Ascii.
From stdpp Require Import gmap strings list fin_maps.

Local Open Scope string_scope.
Local Open Scope Z_scope.
Local Open Scope list_scope.

(** ** Exceptions *)

(** [exn] is an instance of Python's [Exception] class (the errors of the
    Playwright API, [playwright.Error], [TimeoutError], the
    [AssertionError] of [expect], derive from it); [exn_str e] is
    [str(e)], what an f-string prints for [{e}]. *)
Record exn := Exception { exn_str : string }.

(** What a call can raise: an [Exception], or [KeyboardInterrupt], which
    derives from [BaseException] only and is therefore not matched by
    [except Exception]. *)
Inductive raised :=
| Exc (e : exn)
| KeyboardInterrupt.

Inductive outcome (A : Type) :=
| Ok (a : A)
| Raise (r : raised).
Arguments Ok {A} a.
Arguments Raise {A} r.

(** ** The objects the script holds *)

Inductive session := Session.          (* [p] *)
Inductive browser := Browser.          (* [browser] *)
Inductive page := Page.                (* [page] *)
Inductive locator := ByText (text : string).

(** Keyword arguments of [page.screenshot] that matter here; [None] is an
    argument the caller did not pass. *)
Record screenshot_opts := ScreenshotOpts {
  shot_path : option string;
  shot_full_page : option bool
}.

(** ** Calls, in the order they are issued *)

Inductive call :=
| CallEnter                                   (* sync_playwright().__enter__ *)
| CallLaunch (headless : option bool)         (* p.chromium.launch *)
| CallNewPage                                 (* browser.new_page *)
| CallGoto (url : string) (timeout : Z)       (* page.goto *)
| CallGetByText (text : string)               (* page.get_by_text *)
| CallToBeVisible (l : locator) (timeout : Z) (* expect(l).to_be_visible *)
| CallScreenshot (o : screenshot_opts)        (* page.screenshot *)
| CallClose                                   (* browser.close *)
| CallExit                                    (* sync_playwright().__exit__ *)
| CallPrint (line : string).                  (* print *)

Global Instance exn_eq_dec : EqDecision exn.
Proof. solve_decision. Defined.
Global Instance raised_eq_dec : EqDecision raised.
Proof. solve_decision. Defined.
Global Instance locator_eq_dec : EqDecision locator.
Proof. solve_decision. Defined.
Global Instance screenshot_opts_eq_dec : EqDecision screenshot_opts.
Proof. solve_decision. Defined.
Global Instance call_eq_dec : EqDecision call.
Proof. solve_decision. Defined.

(** The bound, in milliseconds, a call was given by its caller. *)
Definition timeout_of (c : call) : option Z :=
  match c with
  | CallGoto _ t => Some t
  | CallToBeVisible _ t => Some t
  | _ => None
  end.

Definition ms_of_seconds (s : Z) : Z := 1000 * s.

(** ** The library *)

(** How far [page.screenshot(path=...)] had got on the disk when it
    raised.  The call captures the image, then makes the directories of
    the path, from the top down, then opens the file and writes. *)
Inductive save_progress :=
| NotStarted                             (* raised while capturing *)
| MakingDirs (made : nat)                (* the first [made] directories exist *)
| Writing (written : option (list byte)). (* directories made; the file is as
                                            it was ([None]) or holds what was
                                            written of it *)

(** What the library answers to each call of one run.  The answer may
    depend on the arguments the script passes.  [pw_screenshot_left]
    is read only when [pw_screenshot] raises. *)
Record playwright := Playwright {
  pw_enter : outcome session;
  pw_launch : option bool -> outcome browser;
  pw_new_page : outcome page;
  pw_goto : string -> Z -> outcome unit;
  pw_to_be_visible : locator -> Z -> outcome unit;
  pw_screenshot : screenshot_opts -> outcome (list byte);
  pw_screenshot_left : screenshot_opts -> save_progress;
  pw_close : outcome unit;
  pw_exit : outcome unit
}.

(** The calls that wait for the driver or the browser and so block the
    calling thread of the synchronous API: every call of the library
    but [get_by_text], which only builds a locator.  [print] does not
    wait for the library. *)
Definition suspends (c : call) : bool :=
  match c with
  | CallGetByText _ | CallPrint _ => false
  | _ => true
  end.

(** [full_page] is false unless the caller asks for it: the image then
    shows the viewport only. *)
Definition full_page (o : screenshot_opts) : bool :=
  default false (shot_full_page o).

(** ** The file system *)

Record fsys := Fsys {
  fs_files : gmap string (list byte);
  fs_dirs : gset string
}.

(** The directories above a path: every proper prefix that ends before a
    ["/"].  [acc] is the part of the path already read. *)
Fixpoint dir_prefixes (acc : string) (s : string) : list string :=
  match s with
  | EmptyString => []
  | String c s' =>
      if Ascii.eqb c "/"%char
      then (if String.eqb acc EmptyString then [] else [acc])
             ++ dir_prefixes (acc +:+ "/") s'
      else dir_prefixes (acc +:+ String c EmptyString) s'
  end.

Definition parent_dirs (p : string) : list string := dir_prefixes EmptyString p.

(** The library saves the image of a screenshot when a path is given: it
    makes the directories of the path that are missing, then writes the
    file, replacing one that is there. *)
Definition save_image (o : screenshot_opts) (img : list byte) (fs : fsys) : fsys :=
  match shot_path o with
  | None => fs
  | Some p => {| fs_files := <[p := img]> (fs_files fs);
                 fs_dirs := fs_dirs fs ∪ list_to_set (parent_dirs p) |}
  end.

(** What a screenshot that raised has left on the disk. *)
Definition leave_behind (o : screenshot_opts) (left : save_progress) (fs : fsys) : fsys :=
  match shot_path o with
  | None => fs
  | Some p =>
      match left with
      | NotStarted => fs
      | MakingDirs made =>
          {| fs_files := fs_files fs;
             fs_dirs := fs_dirs fs ∪ list_to_set (take made (parent_dirs p)) |}
      | Writing None =>
          {| fs_files := fs_files fs;
             fs_dirs := fs_dirs fs ∪ list_to_set (parent_dirs p) |}
      | Writing (Some written) =>
          {| fs_files := <[p := written]> (fs_files fs);
             fs_dirs := fs_dirs fs ∪ list_to_set (parent_dirs p) |}
      end
  end.

(** ** The browser process *)

(** [Closed] is the work of [browser.close()], [Disposed] the work of
    the session when it is left with a browser still running. *)
Inductive browser_state :=
| NoBrowser
| Running
| Closed
| Disposed.

Global Instance browser_state_eq_dec : EqDecision browser_state.
Proof. solve_decision. Defined.

(** ** The world and the monad *)

(** [w_stdout] has one element for each call of [print]: the text
    printed, which spans several lines when it holds newlines. *)
Record world := World {
  w_calls : list call;
  w_stdout : list string;
  w_fs : fsys;
  w_browser : browser_state
}.

Definition M (A : Type) : Type := world -> outcome A * world.

Definition ret {A} (a : A) : M A := fun w => (Ok a, w).

Definition bind {A B} (m : M A) (k : A -> M B) : M B := fun w =>
  match m w with
  | (Ok a, w') => k a w'
  | (Raise r, w') => (Raise r, w')
  end.

Notation "x <- m ;; k" := (bind m (fun x => k))
  (at level 100, m at next level, right associativity).
Notation "m ;;; k" := (bind m (fun _ => k))
  (at level 100, right associativity).

(** [try: body except Exception as e: handler e]. *)
Definition try_except (body : M unit) (handler : exn -> M unit) : M unit := fun w =>
  match body w with
  | (Raise (Exc e), w') => handler e w'
  | other => other
  end.

(** [try: body finally: final].  [final] always runs; what it raises
    replaces what [body] raised. *)
Definition try_finally (body : M unit) (final : M unit) : M unit := fun w =>
  match body w with
  | (Ok _, w') => final w'
  | (Raise r, w') =>
      match final w' with
      | (Ok _, w'') => (Raise r, w'')
      | (Raise r', w'') => (Raise r', w'')
      end
  end.

(** [with cm as x: body], for a context manager whose [__exit__] returns
    [None], as the one of [sync_playwright] does: the exit never
    swallows what the body raised. *)
Definition with_as {A} (enter : M A) (leave : M unit) (body : A -> M unit) : M unit :=
  x <- enter ;; try_finally (body x) leave.

Definition emit (c : call) (w : world) : world :=
  {| w_calls := w_calls w ++ [c]; w_stdout := w_stdout w; w_fs := w_fs w;
     w_browser := w_browser w |}.

Definition set_browser (b : browser_state) (w : world) : world :=
  {| w_calls := w_calls w; w_stdout := w_stdout w; w_fs := w_fs w;
     w_browser := b |}.

Definition set_fs (fs : fsys) (w : world) : world :=
  {| w_calls := w_calls w; w_stdout := w_stdout w; w_fs := fs;
     w_browser := w_browser w |}.

(** Modelled from the spec: what leaving the session does to the browser
    is the library's, not the script's; the spec (4.1, step 1) has the
    scoped session guarantee that the underlying browser process is
    terminated when the operation ends, regardless of success or
    failure.  A browser that is still running is disposed of. *)
Definition dispose (w : world) : world :=
  set_browser (match w_browser w with
               | Running => Disposed
               | other => other
               end) w.

Definition api {A} (c : call) (o : outcome A) : M A := fun w => (o, emit c w).

Definition print (line : string) : M unit := fun w =>
  (Ok tt, {| w_calls := w_calls w ++ [CallPrint line];
             w_stdout := w_stdout w ++ [line];
             w_fs := w_fs w;
             w_browser := w_browser w |}).

Section Script.

Variable pw : playwright.

(** Entering and leaving [with sync_playwright() as p].  The script
    only leaves the block; the session then disposes of a browser that
    is still running (see [dispose]). *)
Definition sync_playwright_enter : M session := api CallEnter (pw_enter pw).
Definition sync_playwright_exit : M unit := fun w =>
  (pw_exit pw, dispose (emit CallExit w)).

(** A launch that returns has started a browser process. *)
Definition launch (p : session) (headless : option bool) : M browser := fun w =>
  match pw_launch pw headless with
  | Ok b => (Ok b, set_browser Running (emit (CallLaunch headless) w))
  | Raise r => (Raise r, emit (CallLaunch headless) w)
  end.
Definition new_page (b : browser) : M page := api CallNewPage (pw_new_page pw).
Definition goto (pg : page) (url : string) (timeout : Z) : M unit :=
  api (CallGoto url timeout) (pw_goto pw url timeout).
Definition get_by_text (pg : page) (text : string) : M locator :=
  api (CallGetByText text) (Ok (ByText text)).
Definition expect_to_be_visible (l : locator) (timeout : Z) : M unit :=
  api (CallToBeVisible l timeout) (pw_to_be_visible pw l timeout).
(** A close that returns has ended the browser process; one that raises
    leaves it as it was. *)
Definition close (b : browser) : M unit := fun w =>
  match pw_close pw with
  | Ok _ => (Ok tt, set_browser Closed (emit CallClose w))
  | Raise r => (Raise r, emit CallClose w)
  end.

(** A screenshot that returns has saved the image; one that raises
    leaves on the disk what it had done of the save. *)
Definition screenshot (pg : page) (o : screenshot_opts) : M (list byte) := fun w =>
  match pw_screenshot pw o with
  | Ok img =>
      (Ok img, set_fs (save_image o img (w_fs w)) (emit (CallScreenshot o) w))
  | Raise r =>
      (Raise r, set_fs (leave_behind o (pw_screenshot_left pw o) (w_fs w))
                       (emit (CallScreenshot o) w))
  end.

(** ** The script *)

Definition target_url : string := "http://localhost:8081".
Definition marker : string := "Nadar".
Definition screenshot_path : string := "jules-scratch/verification/landing_screen.png".
Definition landing_shot : screenshot_opts :=
  {| shot_path := Some screenshot_path; shot_full_page := None |}.

Definition msg_capturing : string := "Capturing Landing Screen...".
Definition msg_captured : string := "Landing Screen captured.".
Definition msg_closed : string := "Browser closed.".
Definition msg_error (e : exn) : string :=
  "An error occurred during Playwright execution: " +:+ exn_str e.

Definition run_verification : M unit :=
  with_as sync_playwright_enter sync_playwright_exit (fun p =>
    b <- launch p (Some true) ;;
    pg <- new_page b ;;
    try_finally
      (try_except
         (goto pg target_url 60000 ;;;
          l <- get_by_text pg marker ;;
          expect_to_be_visible l 30000 ;;;
          print msg_capturing ;;;
          _ <- screenshot pg landing_shot ;;
          print msg_captured)
         (fun e => print (msg_error e)))
      (close b ;;;
       print msg_closed)).

(** [if __name__ == "__main__": run_verification()]. *)
Definition main : M unit := run_verification.

End Script.

(** The status the interpreter exits with: 0 when the program runs to
    its end, 1 when an exception reaches the top level, 130 when
    [KeyboardInterrupt] does. *)
Definition exit_status (o : outcome unit) : Z :=
  match o with
  | Ok _ => 0
  | Raise (Exc _) => 1
  | Raise KeyboardInterrupt => 130
  end.

(** ** What a run adds to the world *)

Definition new_calls (pw : playwright) (w : world) : list call :=
  drop (length (w_calls w)) (w_calls (run_verification pw w).2).

Definition new_stdout (pw : playwright) (w : world) : list string :=
  drop (length (w_stdout w)) (w_stdout (run_verification pw w).2).

(** ** Scenarios *)

(** The [try] block is reached: the session started, the browser was
    launched and the page was opened. *)
Definition reaches_try (pw : playwright) : Prop :=
  pw_enter pw = Ok Session /\
  pw_launch pw (Some true) = Ok Browser /\
  pw_new_page pw = Ok Page.

(** What the body of the [try] block raises, if anything: the answer of
    the first of navigation, visibility wait and screenshot that fails. *)
Definition body_raises (pw : playwright) : option raised :=
  match pw_goto pw target_url 60000 with
  | Raise r => Some r
  | Ok _ =>
      match pw_to_be_visible pw (ByText marker) 30000 with
      | Raise r => Some r
      | Ok _ =>
          match pw_screenshot pw landing_shot with
          | Raise r => Some r
          | Ok _ => None
          end
      end
  end.

(** The navigation or the visibility wait, whichever is reached first,
    raises [r]. *)
Definition navigation_or_wait_raises (pw : playwright) (r : raised) : Prop :=
  pw_goto pw target_url 60000 = Raise r \/
  (pw_goto pw target_url 60000 = Ok tt /\
   pw_to_be_visible pw (ByText marker) 30000 = Raise r).

(** What the cleanup alone decides: the exception of the session exit if
    it raises, else the one of [browser.close()] if it raises, else a
    normal return. *)
Definition cleanup_outcome (pw : playwright) : outcome unit :=
  match pw_exit pw with
  | Raise r => Raise r
  | Ok _ =>
      match pw_close pw with
      | Raise r => Raise r
      | Ok _ => Ok tt
      end
  end.

(** The run in which everything succeeds and the screenshot is [img]. *)
Definition happy_path (pw : playwright) (img : list byte) : Prop :=
  reaches_try pw /\
  pw_goto pw target_url 60000 = Ok tt /\
  pw_to_be_visible pw (ByText marker) 30000 = Ok tt /\
  pw_screenshot pw landing_shot = Ok img /\
  pw_close pw = Ok tt /\
  pw_exit pw = Ok tt.

(** Two runs in a row: the second starts in the world the first left. *)
Definition run_twice (pw1 pw2 : playwright) (w : world) : outcome unit * world :=
  run_verification pw2 (run_verification pw1 w).2.


(** The place of a call in the text of [run_verification], counting the
    calls from the top; the handler's [print] is the one whose line is
    none of the three fixed lines. *)
Definition source_position (c : call) : nat :=
  match c with
  | CallEnter => 0
  | CallLaunch _ => 1
  | CallNewPage => 2
  | CallGoto _ _ => 3
  | CallGetByText _ => 4
  | CallToBeVisible _ _ => 5
  | CallScreenshot _ => 7
  | CallClose => 10
  | CallExit => 12
  | CallPrint line =>
      if String.eqb line msg_capturing then 6
      else if String.eqb line msg_captured then 8
      else if String.eqb line msg_closed then 11
      else 9
  end%nat.

Fixpoint increasing (l : list nat) : bool :=
  match l with
  | a :: (b :: _) as rest => (a <? b)%nat && increasing rest
  | _ => true
  end.

(** What the [finally] block and the end of the [with] block issue. *)
Definition cleanup_calls (pw : playwright) : list call :=
  CallClose ::
  match pw_close pw with
  | Ok _ => [CallPrint msg_closed]
  | Raise _ => []
  end ++ [CallExit].




Definition is_screenshot (c : call) : bool :=
  match c with
  | CallScreenshot _ => true
  | _ => false
  end.

(** How often a log asks for a screenshot. *)
Definition count_screenshots (l : list call) : nat :=
  length (List.filter is_screenshot l).

(** Everything a run issues up to and including the capture. *)
Definition calls_up_to_capture : list call :=
  [ CallEnter; CallLaunch (Some true); CallNewPage;
    CallGoto target_url 60000;
    CallGetByText marker; CallToBeVisible (ByText marker) 30000;
    CallPrint msg_capturing; CallScreenshot landing_shot ].

(** ** Concrete libraries *)

Definition w0 : world := World [] [] (Fsys ∅ ∅) NoBrowser.

Definition png : list byte := [x89; x50; x4e; x47].

Definition connection_refused : exn :=
  Exception "net::ERR_CONNECTION_REFUSED at http://localhost:8081/".
Definition timeout_error : exn := Exception "Timeout 60000ms exceeded.".
Definition not_visible_error : exn := Exception "Locator expected to be visible".
Definition launch_error : exn := Exception "Executable doesn't exist".
Definition page_error : exn := Exception "Target page, context or browser has been closed".

(** A library whose session starts and whose cleanup returns, with the
    given answers to launch, new page, navigation, wait and capture. *)
Definition pw_answers (l : outcome browser) (n : outcome page)
    (g v : outcome unit) (s : outcome (list byte)) : playwright :=
  {| pw_enter := Ok Session;
     pw_launch := fun _ => l;
     pw_new_page := n;
     pw_goto := fun _ _ => g;
     pw_to_be_visible := fun _ _ => v;
     pw_screenshot := fun _ => s;
     pw_screenshot_left := fun _ => NotStarted;
     pw_close := Ok tt;
     pw_exit := Ok tt |}.

(** The server is up and shows the marker. *)
Definition pw_ok (img : list byte) : playwright :=
  pw_answers (Ok Browser) (Ok Page) (Ok tt) (Ok tt) (Ok img).

(** The browser cannot be started. *)
Definition pw_launch_fails : playwright :=
  pw_answers (Raise (Exc launch_error)) (Ok Page) (Ok tt) (Ok tt) (Ok png).

(** The browser starts but no page can be opened. *)
Definition pw_new_page_fails : playwright :=
  pw_answers (Ok Browser) (Raise (Exc page_error)) (Ok tt) (Ok tt) (Ok png).

(** No server listens on the port. *)
Definition pw_unreachable : playwright :=
  pw_answers (Ok Browser) (Ok Page) (Raise (Exc connection_refused)) (Ok tt) (Ok png).

(** The server accepts the connection and does not answer in time. *)
Definition pw_slow_server : playwright :=
  pw_answers (Ok Browser) (Ok Page) (Raise (Exc timeout_error)) (Ok tt) (Ok png).

(** The page loads but never shows the marker. *)
Definition pw_no_marker : playwright :=
  pw_answers (Ok Browser) (Ok Page) (Ok tt) (Raise (Exc not_visible_error)) (Ok png).


(** The user interrupts the run during the navigation. *)
Definition pw_interrupted : playwright :=
  pw_answers (Ok Browser) (Ok Page) (Raise KeyboardInterrupt) (Ok tt) (Ok png).

(** Everything succeeds but [browser.close()]. *)
Definition pw_close_fails : playwright :=
  {| pw_enter := Ok Session;
     pw_launch := fun _ => Ok Browser;
     pw_new_page := Ok Page;
     pw_goto := fun _ _ => Ok tt;
     pw_to_be_visible := fun _ _ => Ok tt;
     pw_screenshot := fun _ => Ok png;
     pw_screenshot_left := fun _ => NotStarted;
     pw_close := Raise (Exc (Exception "Connection closed"));
     pw_exit := Ok tt |}.

(** The driver of the library cannot be started. *)
Definition pw_enter_fails : playwright :=
  {| pw_enter := Raise (Exc (Exception "Driver not found"));
     pw_launch := fun _ => Ok Browser;
     pw_new_page := Ok Page;
     pw_goto := fun _ _ => Ok tt;
     pw_to_be_visible := fun _ _ => Ok tt;
     pw_screenshot := fun _ => Ok png;
     pw_screenshot_left := fun _ => NotStarted;
     pw_close := Ok tt;
     pw_exit := Ok tt |}.

(** The marker never shows, and leaving the session fails as well. *)
Definition pw_exit_fails : playwright :=
  {| pw_enter := Ok Session;
     pw_launch := fun _ => Ok Browser;
     pw_new_page := Ok Page;
     pw_goto := fun _ _ => Ok tt;
     pw_to_be_visible := fun _ _ => Raise (Exc not_visible_error);
     pw_screenshot := fun _ => Ok png;
     pw_screenshot_left := fun _ => NotStarted;
     pw_close := Ok tt;
     pw_exit := Raise (Exc (Exception "Connection closed")) |}.

(** The user interrupts the wait, and [browser.close()] fails. *)
Definition pw_interrupted_close_fails : playwright :=
  {| pw_enter := Ok Session;
     pw_launch := fun _ => Ok Browser;
     pw_new_page := Ok Page;
     pw_goto := fun _ _ => Ok tt;
     pw_to_be_visible := fun _ _ => Raise KeyboardInterrupt;
     pw_screenshot := fun _ => Ok png;
     pw_screenshot_left := fun _ => NotStarted;
     pw_close := Raise (Exc (Exception "Connection closed"));
     pw_exit := Ok tt |}.

(** The disk is full: the capture succeeds, the directories are made,
    the file is opened and nothing can be written into it. *)
Definition pw_disk_full : playwright :=
  {| pw_enter := Ok Session;
     pw_launch := fun _ => Ok Browser;
     pw_new_page := Ok Page;
     pw_goto := fun _ _ => Ok tt;
     pw_to_be_visible := fun _ _ => Ok tt;
     pw_screenshot := fun _ => Raise (Exc (Exception "[Errno 28] No space left on device"));
     pw_screenshot_left := fun _ => Writing (Some []);
     pw_close := Ok tt;
     pw_exit := Ok tt |}.

(** ** Proof tools *)

Ltac unfold_run :=
  unfold new_calls, new_stdout, run_twice, main, run_verification, with_as,
    try_finally, try_except, bind, sync_playwright_enter, sync_playwright_exit,
    launch, new_page, goto, get_by_text, expect_to_be_visible, close,
    screenshot, api, print, dispose, set_browser, set_fs, emit in *;
  simpl in *.

Ltac unfold_scenario :=
  unfold happy_path, reaches_try, body_raises, cleanup_outcome in *.

(** Case analysis on the next answer of the library that the goal (or a
    hypothesis) inspects. *)
Ltac split_outcome :=
  match goal with
  | |- context [match ?o with Ok _ => _ | Raise _ => _ end] =>
      destruct o as [[]|[?|]] eqn:?
  | |- context [match ?o with Ok _ => _ | Raise _ => _ end] =>
      destruct o as [?|[?|]] eqn:?
  | H : context [match ?o with Ok _ => _ | Raise _ => _ end] |- _ =>
      destruct o as [[]|[?|]] eqn:?
  | H : context [match ?o with Ok _ => _ | Raise _ => _ end] |- _ =>
      destruct o as [?|[?|]] eqn:?
  | |- context [match ?r with Exc _ => _ | KeyboardInterrupt => _ end] =>
      destruct r as [?|]
  end; simpl in *; try congruence.

Ltac tidy_lists :=
  rewrite <- ?app_assoc; simpl;
  rewrite ?drop_app_length, ?drop_all, ?app_nil_r.

(** All the runs the goal speaks of, one case for each. *)
Ltac run_cases_goal :=
  unfold_scenario; unfold_run;
  repeat match goal with
         | H : ?lhs = _ |- context [?lhs] => rewrite H; simpl
         end;
  repeat split_outcome;
  repeat match goal with
         | |- context [pw_exit ?p] =>
             destruct (pw_exit p) as [[]|[?|]] eqn:?; simpl in *
         end;
  tidy_lists.

Ltac run_cases :=
  unfold_scenario; intros; destruct_and?; run_cases_goal.

(** Two calls differ: by their constructors, their arguments or a fact in
    the context. *)
Ltac calls_differ :=
  first [ congruence | discriminate
        | let H := fresh in intros H; injection H; intros; first [ congruence | discriminate ] ].

Ltac not_in_calls :=
  repeat (apply not_elem_of_cons; split; [ calls_differ | ]);
  apply not_elem_of_nil.

Ltac in_calls :=
  solve [ repeat first [ apply list_elem_of_here | apply list_elem_of_further ] ].

Ltac solve_suffix :=
  solve [ repeat first [ reflexivity | apply suffix_cons_r ] ].


(** ** Runs on concrete libraries *)

Example run_ok :
  run_verification (pw_ok png) w0 =
    (Ok tt,
     {| w_calls :=
          [ CallEnter; CallLaunch (Some true); CallNewPage;
            CallGoto "http://localhost:8081" 60000;
            CallGetByText "Nadar"; CallToBeVisible (ByText "Nadar") 30000;
            CallPrint "Capturing Landing Screen...";
            CallScreenshot
              {| shot_path := Some "jules-scratch/verification/landing_screen.png";
                 shot_full_page := None |};
            CallPrint "Landing Screen captured.";
            CallClose; CallPrint "Browser closed."; CallExit ];
        w_stdout :=
          [ "Capturing Landing Screen..."; "Landing Screen captured.";
            "Browser closed." ];
        w_fs := save_image landing_shot png (w_fs w0);
        w_browser := Closed |}).
Proof. reflexivity. Qed.

Example run_unreachable :
  (run_verification pw_unreachable w0).1 = Ok tt /\
  new_calls pw_unreachable w0 =
    [ CallEnter; CallLaunch (Some true); CallNewPage;
      CallGoto "http://localhost:8081" 60000;
      CallPrint ("An error occurred during Playwright execution: " +:+
                 "net::ERR_CONNECTION_REFUSED at http://localhost:8081/");
      CallClose; CallPrint "Browser closed."; CallExit ] /\
  w_fs (run_verification pw_unreachable w0).2 = w_fs w0.
Proof. repeat split; reflexivity. Qed.

Example run_no_marker :
  (run_verification pw_no_marker w0).1 = Ok tt /\
  new_stdout pw_no_marker w0 =
    [ "An error occurred during Playwright execution: Locator expected to be visible";
      "Browser closed." ].
Proof. split; reflexivity. Qed.

Example run_interrupted :
  (run_verification pw_interrupted w0).1 = Raise KeyboardInterrupt /\
  new_calls pw_interrupted w0 =
    [ CallEnter; CallLaunch (Some true); CallNewPage;
      CallGoto "http://localhost:8081" 60000;
      CallClose; CallPrint "Browser closed."; CallExit ] /\
  exit_status (main pw_interrupted w0).1 = 130.
Proof. repeat split; reflexivity. Qed.

Example run_launch_fails :
  (run_verification pw_launch_fails w0).1 = Raise (Exc launch_error) /\
  new_calls pw_launch_fails w0 = [CallEnter; CallLaunch (Some true); CallExit] /\
  new_stdout pw_launch_fails w0 = [].
Proof. repeat split; reflexivity. Qed.

Example run_close_fails :
  (run_verification pw_close_fails w0).1 = Raise (Exc (Exception "Connection closed")) /\
  new_stdout pw_close_fails w0 =
    [ "Capturing Landing Screen..."; "Landing Screen captured." ] /\
  exit_status (main pw_close_fails w0).1 = 1.
Proof. repeat split; reflexivity. Qed.

Example parent_dirs_of_screenshot_path :
  parent_dirs screenshot_path = ["jules-scratch"; "jules-scratch/verification"].
Proof. reflexivity. Qed.

Example parent_dirs_of_plain_name : parent_dirs "landing_screen.png" = [].
Proof. reflexivity. Qed.

Example parent_dirs_of_absolute_path :
  parent_dirs "/tmp/shots/a.png" = ["/tmp"; "/tmp/shots"].
Proof. reflexivity. Qed.

(** ** The log only grows *)

Lemma run_calls_extend pw w :
  w_calls (run_verification pw w).2 = w_calls w ++ new_calls pw w.
Proof. run_cases; reflexivity. Qed.

Lemma run_stdout_extend pw w :
  w_stdout (run_verification pw w).2 = w_stdout w ++ new_stdout pw w.
Proof. run_cases; reflexivity. Qed.

(** The calls a run issues depend on the library's answers only. *)
Lemma new_calls_any_world pw w w' : new_calls pw w = new_calls pw w'.
Proof. run_cases; reflexivity. Qed.

(** The handler's line never coincides with a progress line. *)
Lemma msg_error_not_progress e :
  msg_error e <> msg_capturing /\ msg_error e <> msg_captured /\ msg_error e <> msg_closed.
Proof. repeat split; discriminate. Qed.

(** ** Calls follow the text of the script *)

Lemma increasing_head_below a l :
  increasing (a :: l) = true -> Forall (fun b => (a < b)%nat) l.
Proof.
  revert a. induction l as [|b l IH]; intros a H; [constructor|].
  simpl in H. apply andb_prop in H as [Hab Hl].
  apply Nat.ltb_lt in Hab. constructor; [exact Hab|].
  eapply Forall_impl; [apply IH, Hl|]. intros c Hc. simpl in Hc. lia.
Qed.

Lemma increasing_tail a l : increasing (a :: l) = true -> increasing l = true.
Proof.
  destruct l as [|b l]; [reflexivity|].
  simpl. intros H. apply andb_prop in H as [_ H]. exact H.
Qed.

Lemma increasing_positions_NoDup (l : list call) :
  increasing (source_position <$> l) = true -> NoDup l.
Proof.
  induction l as [|c l IH]; intros H; [apply NoDup_nil_2|].
  rewrite fmap_cons in H. apply NoDup_cons_2.
  - intros Hin. apply increasing_head_below in H.
    rewrite Forall_forall in H.
    specialize (H (source_position c) (list_elem_of_fmap_2 _ _ _ Hin)). lia.
  - apply IH. eapply increasing_tail, H.
Qed.

(** Every run issues its calls from the top of the text to the bottom. *)
Lemma new_calls_increasing pw w :
  increasing (source_position <$> new_calls pw w) = true.
Proof. run_cases; reflexivity. Qed.

(** No call is issued twice in a run. *)
Lemma new_calls_NoDup pw w : NoDup (new_calls pw w).
Proof. apply increasing_positions_NoDup, new_calls_increasing. Qed.

(** ** The handler *)

(** C1, as stated, fails for an exception outside [Exception]: a
    [KeyboardInterrupt] raised during the navigation is not caught, no
    text about it is printed, and it is raised again to the caller. *)
Lemma interrupt_during_navigation_is_not_caught :
  reaches_try pw_interrupted /\
  pw_goto pw_interrupted target_url 60000 = Raise KeyboardInterrupt /\
  (run_verification pw_interrupted w0).1 = Raise KeyboardInterrupt /\
  new_stdout pw_interrupted w0 = ["Browser closed."].
Proof. repeat split; reflexivity. Qed.

(** C1, amended.  Whatever instance of [Exception] the navigation, the
    visibility wait or the screenshot raises, the one [except Exception]
    handler catches it: the text
    [An error occurred during Playwright execution: ] followed by
    [str(e)] is printed; what the run then returns or raises is decided
    by the cleanup alone, so the run returns normally when the cleanup
    does and [e] is not raised again; no call is issued twice. *)
Theorem caught_exception_is_printed_not_reraised pw w e :
  reaches_try pw ->
  body_raises pw = Some (Exc e) ->
  CallPrint ("An error occurred during Playwright execution: " +:+ exn_str e)
    ∈ new_calls pw w /\
  ("An error occurred during Playwright execution: " +:+ exn_str e)
    ∈ new_stdout pw w /\
  (run_verification pw w).1 = cleanup_outcome pw /\
  (pw_close pw = Ok tt -> pw_exit pw = Ok tt -> (run_verification pw w).1 = Ok tt) /\
  NoDup (new_calls pw w).
Proof.
  intros Htry Hbody.
  change ("An error occurred during Playwright execution: " +:+ exn_str e)
    with (msg_error e).
  split; [|split; [|split; [|split; [|apply new_calls_NoDup]]]];
    revert Htry Hbody; run_cases; simplify_eq;
    first [ congruence | in_calls | done ].
Qed.

(** The marker never shows: the wait raises, the handler reports it and
    the run returns. *)
Lemma caught_exception_witness :
  reaches_try pw_no_marker /\
  body_raises pw_no_marker = Some (Exc not_visible_error) /\
  "An error occurred during Playwright execution: Locator expected to be visible"
    ∈ new_stdout pw_no_marker w0 /\
  (run_verification pw_no_marker w0).1 = Ok tt.
Proof.
  assert (Htry : reaches_try pw_no_marker) by (repeat split).
  assert (Hbody : body_raises pw_no_marker = Some (Exc not_visible_error))
    by reflexivity.
  destruct (caught_exception_is_printed_not_reraised pw_no_marker w0
              not_visible_error Htry Hbody) as (_ & Hout & _ & Hret & _).
  split; [exact Htry|]. split; [exact Hbody|]. split; [exact Hout|].
  apply Hret; reflexivity.
Defined.

(** ** Cleanup *)

(** C2.  On every run on which the browser was launched, whether the
    rest succeeds, fails and is caught, or raises to the caller, no
    browser process is running when the run ends: the browser has been
    closed by [browser.close()], which the [finally] block calls on
    every run that reaches the [try] block, or else disposed of by the
    session, whose exit is the last call of the run. *)
Theorem browser_closed_on_every_path pw w :
  pw_enter pw = Ok Session ->
  pw_launch pw (Some true) = Ok Browser ->
  w_browser (run_verification pw w).2 <> Running /\
  (w_browser (run_verification pw w).2 = Closed \/
   w_browser (run_verification pw w).2 = Disposed) /\
  (w_browser (run_verification pw w).2 = Closed <->
     pw_new_page pw = Ok Page /\ pw_close pw = Ok tt) /\
  (pw_new_page pw = Ok Page -> cleanup_calls pw `suffix_of` new_calls pw w) /\
  [CallExit] `suffix_of` new_calls pw w.
Proof.
  intros Henter Hlaunch.
  split; [|split; [|split; [|split]]].
  - revert Henter Hlaunch. run_cases; discriminate.
  - revert Henter Hlaunch. run_cases; auto.
  - revert Henter Hlaunch. run_cases;
      (split; [intros Hb | intros (? & ?)]);
      first [ by split | discriminate ].
  - unfold cleanup_calls. revert Henter Hlaunch. run_cases; solve_suffix.
  - revert Henter Hlaunch. run_cases; solve_suffix.
Qed.

(** The page cannot be opened: the [finally] block is not reached, the
    session disposes of the browser. *)
Lemma browser_closed_witness :
  pw_enter pw_new_page_fails = Ok Session /\
  pw_launch pw_new_page_fails (Some true) = Ok Browser /\
  (run_verification pw_new_page_fails w0).1 = Raise (Exc page_error) /\
  w_browser (run_verification pw_new_page_fails w0).2 = Disposed.
Proof.
  split; [reflexivity|]. split; [reflexivity|]. split; [reflexivity|].
  destruct (browser_closed_on_every_path pw_new_page_fails w0 eq_refl eq_refl)
    as (_ & [H|H] & _).
  - discriminate H.
  - exact H.
Defined.

(** ** Order of the steps *)



(** ** The screenshot *)

(** C4, as stated, fails on the run in which everything succeeds: the one
    screenshot call passes [path] only, so [full_page] has its default
    and the image shows the viewport, not the entire page. *)
Lemma screenshot_is_not_full_page :
  happy_path (pw_ok png) png /\
  CallScreenshot landing_shot ∈ new_calls (pw_ok png) w0 /\
  (forall o, CallScreenshot o ∈ new_calls (pw_ok png) w0 -> full_page o = false).
Proof.
  assert (E : new_calls (pw_ok png) w0 =
              calls_up_to_capture ++
              [CallPrint msg_captured; CallClose; CallPrint msg_closed; CallExit])
    by reflexivity.
  split; [by repeat split|]. rewrite E.
  split; [unfold calls_up_to_capture; simpl; in_calls|].
  intros o Hin. apply list_elem_of_In in Hin. simpl in Hin.
  repeat (destruct Hin as [Hin|Hin]; [try discriminate Hin|]);
    [|destruct Hin].
  injection Hin as <-. reflexivity.
Qed.

(** C4, amended.  When the visibility wait has returned, the run asks
    for a screenshot exactly once, with the path
    [jules-scratch/verification/landing_screen.png] and no other option
    ([full_page] is not asked for); when the capture returns an image,
    the file at that path holds it afterwards, no other file changes,
    and the directories of the path exist next to those that were
    there. *)
Theorem screenshot_saved_at_fixed_path pw w :
  reaches_try pw ->
  pw_goto pw target_url 60000 = Ok tt ->
  pw_to_be_visible pw (ByText marker) 30000 = Ok tt ->
  count_screenshots (new_calls pw w) = 1%nat /\
  (forall o, CallScreenshot o ∈ new_calls pw w <-> o = landing_shot) /\
  shot_path landing_shot = Some "jules-scratch/verification/landing_screen.png" /\
  shot_full_page landing_shot = None /\
  full_page landing_shot = false /\
  (forall img, pw_screenshot pw landing_shot = Ok img ->
     fs_files (w_fs (run_verification pw w).2)
       = <[screenshot_path := img]> (fs_files (w_fs w)) /\
     fs_dirs (w_fs (run_verification pw w).2)
       = fs_dirs (w_fs w) ∪ {["jules-scratch"; "jules-scratch/verification"]}).
Proof.
  intros Htry Hgoto Hvis.
  split; [|split; [|split; [reflexivity|split; [reflexivity|split; [reflexivity|]]]]].
  - revert Htry Hgoto Hvis. run_cases; reflexivity.
  - intros o. revert Htry Hgoto Hvis. run_cases.
    all: split; [intros Hin | intros ->; in_calls].
    all: apply list_elem_of_In in Hin; simpl in Hin.
    all: repeat (destruct Hin as [Hin|Hin]; [try discriminate Hin|]);
           [|destruct Hin].
    all: by injection Hin.
  - intros img Hshot. revert Htry Hgoto Hvis Hshot. run_cases.
    all: split; [reflexivity|].
    all: f_equal; set_solver.
Qed.

(** After the happy run the file holds the image. *)
Lemma screenshot_saved_witness :
  reaches_try (pw_ok png) /\
  fs_files (w_fs (run_verification (pw_ok png) w0).2) !! screenshot_path = Some png.
Proof.
  assert (Htry : reaches_try (pw_ok png)) by (repeat split).
  split; [exact Htry|].
  destruct (screenshot_saved_at_fixed_path (pw_ok png) w0 Htry eq_refl eq_refl)
    as (_ & _ & _ & _ & _ & Hfs).
  destruct (Hfs png eq_refl) as [-> _].
  apply lookup_insert_eq.
Defined.

(** ** Bounded calls *)

(** When the navigation or the wait raises, the steps after it are
    skipped: the world keeps its files, the screenshot is never asked
    for, and an [Exception] is reported by the handler. *)
Lemma failed_wait_skips_capture pw w r :
  reaches_try pw ->
  navigation_or_wait_raises pw r ->
  (forall o, CallScreenshot o ∉ new_calls pw w) /\
  w_fs (run_verification pw w).2 = w_fs w /\
  (msg_capturing ∉ new_stdout pw w) /\
  (forall e, r = Exc e ->
     msg_error e ∈ new_stdout pw w /\ CallPrint (msg_error e) ∈ new_calls pw w).
Proof.
  intros Htry [Hgoto|[Hgoto Hvis]].
  all: split; [intros o|split; [|split; [|intros e0 ->; split]]].
  all: revert Htry Hgoto; try revert Hvis; run_cases.
  all: first [ reflexivity | in_calls | not_in_calls ].
Qed.

(** C5, as stated, fails: the navigation and the wait are not the only
    points at which the run is suspended.  On the run in which
    everything succeeds the launch, the creation of the page, the
    screenshot and the close wait for the browser as well, and the
    script gives none of them a time bound. *)
Lemma launch_suspends_without_time_bound :
  Forall (fun c => c ∈ new_calls (pw_ok png) w0 /\
                   suspends c = true /\ timeout_of c = None)
    [CallLaunch (Some true); CallNewPage; CallScreenshot landing_shot; CallClose].
Proof.
  assert (E : new_calls (pw_ok png) w0 =
              calls_up_to_capture ++
              [CallPrint msg_captured; CallClose; CallPrint msg_closed; CallExit])
    by reflexivity.
  rewrite E. unfold calls_up_to_capture. simpl.
  repeat (constructor; [split; [in_calls | split; reflexivity]|]).
  constructor.
Qed.

(** C5, amended.  The navigation to [http://localhost:8081] is given a
    bound of 60000 ms (60 s) and the visibility wait on the locator for
    the text [Nadar] a bound of 30000 ms (30 s).  These are the only
    two calls to which the script gives a time bound: every other call
    at which a run is suspended (session enter, launch, new page,
    screenshot, close, session exit) is issued without one.  Each of
    the two is issued when the run reaches it and at most once, and
    when either raises the run goes to the handler: the call is not
    issued again and the later steps are skipped. *)
Theorem navigation_and_wait_time_bounds pw w :
  ms_of_seconds 60 = 60000 /\
  ms_of_seconds 30 = 30000 /\
  (forall c t, c ∈ new_calls pw w -> timeout_of c = Some t ->
     c = CallGoto "http://localhost:8081" (ms_of_seconds 60) \/
     c = CallToBeVisible (ByText "Nadar") (ms_of_seconds 30)) /\
  (forall c, c ∈ new_calls pw w -> suspends c = true -> timeout_of c = None ->
     c ∈ [CallEnter; CallLaunch (Some true); CallNewPage;
          CallScreenshot landing_shot; CallClose; CallExit]) /\
  (reaches_try pw ->
     CallGoto "http://localhost:8081" 60000 ∈ new_calls pw w) /\
  (reaches_try pw -> pw_goto pw target_url 60000 = Ok tt ->
     CallToBeVisible (ByText "Nadar") 30000 ∈ new_calls pw w) /\
  NoDup (new_calls pw w) /\
  (forall e, reaches_try pw -> navigation_or_wait_raises pw (Exc e) ->
     ("An error occurred during Playwright execution: " +:+ exn_str e)
       ∈ new_stdout pw w /\
     (forall o, CallScreenshot o ∉ new_calls pw w)).
Proof.
  split; [reflexivity|split; [reflexivity|]].
  split; [|split; [|split; [|split; [|split; [apply new_calls_NoDup|]]]]].
  - change (ms_of_seconds 60) with 60000. change (ms_of_seconds 30) with 30000.
    intros c t Hin Ht. revert Hin. run_cases_goal.
    all: intros Hin; apply list_elem_of_In in Hin; simpl in Hin.
    all: repeat (destruct Hin as [<-|Hin]; [try discriminate Ht; auto|]);
           destruct Hin.
  - intros c Hin Hs Ht. revert Hin. run_cases_goal.
    all: intros Hin; apply list_elem_of_In in Hin; simpl in Hin.
    all: repeat (destruct Hin as [<-|Hin];
                 [first [ discriminate Hs | discriminate Ht | in_calls ]|]);
           destruct Hin.
  - run_cases; in_calls.
  - run_cases; in_calls.
  - intros e Htry Hfail.
    destruct (failed_wait_skips_capture pw w (Exc e) Htry Hfail)
      as (Hshot & _ & _ & Hmsg).
    split; [apply (Hmsg e eq_refl) | exact Hshot].
Qed.

(** The navigation runs into its bound of 60 s. *)
Lemma navigation_timeout_witness :
  reaches_try pw_slow_server /\
  navigation_or_wait_raises pw_slow_server (Exc timeout_error) /\
  "An error occurred during Playwright execution: Timeout 60000ms exceeded."
    ∈ new_stdout pw_slow_server w0.
Proof.
  assert (Htry : reaches_try pw_slow_server) by (repeat split).
  assert (Hfail : navigation_or_wait_raises pw_slow_server (Exc timeout_error))
    by (left; reflexivity).
  split; [exact Htry|]. split; [exact Hfail|].
  destruct (navigation_and_wait_time_bounds pw_slow_server w0)
    as (_ & _ & _ & _ & _ & _ & _ & H).
  exact (proj1 (H timeout_error Htry Hfail)).
Defined.

(** ** Exit status *)

(** C6, as stated, fails: when the browser cannot be launched the
    exception reaches the top level and the process exits with 1. *)
Lemma exit_status_nonzero_when_launch_fails :
  (main pw_launch_fails w0).1 = Raise (Exc launch_error) /\
  exit_status (main pw_launch_fails w0).1 = 1.
Proof. split; reflexivity. Qed.

(** C6, amended.  The process exits with 0 exactly when the [try] block
    is reached, its body does not raise [KeyboardInterrupt], and
    [browser.close()] and the session exit return.  So the status is 0
    on the happy path and on every run whose only failure is an
    [Exception] of the navigation, the wait or the screenshot: the
    handler's path sets no status. *)
Theorem exit_status_zero_iff pw w :
  (exit_status (main pw w).1 = 0 <->
     reaches_try pw /\ body_raises pw <> Some KeyboardInterrupt /\
     pw_close pw = Ok tt /\ pw_exit pw = Ok tt) /\
  (forall img, happy_path pw img -> exit_status (main pw w).1 = 0) /\
  (forall e, reaches_try pw -> body_raises pw = Some (Exc e) ->
     pw_close pw = Ok tt -> pw_exit pw = Ok tt ->
     exit_status (main pw w).1 = 0).
Proof.
  split; [|split].
  - run_cases.
    all: split; [intros Hst | intros ((? & ? & ?) & ? & ? & ?)].
    all: first [ discriminate | congruence | by repeat split ].
  - intros img. run_cases. reflexivity.
  - intros e. run_cases; reflexivity.
Qed.

(** The marker never shows, and the process still exits with 0. *)
Lemma exit_status_zero_witness :
  reaches_try pw_no_marker /\
  body_raises pw_no_marker = Some (Exc not_visible_error) /\
  exit_status (main pw_no_marker w0).1 = 0.
Proof.
  assert (Htry : reaches_try pw_no_marker) by (repeat split).
  split; [exact Htry|]. split; [reflexivity|].
  exact (proj2 (proj2 (exit_status_zero_iff pw_no_marker w0))
           not_visible_error Htry eq_refl eq_refl eq_refl).
Defined.

(** ** Failures before the [try] block *)



(** ** Failures of the navigation and of the wait *)

(** C8.  When the navigation or the visibility wait raises an exception,
    the run never asks for the screenshot, the file system is left as it
    was, and the handler's line, which ends with [str(e)], is on
    standard output. *)
Theorem failed_navigation_or_wait_leaves_no_screenshot pw w e :
  reaches_try pw ->
  navigation_or_wait_raises pw (Exc e) ->
  (forall o, CallScreenshot o ∉ new_calls pw w) /\
  w_fs (run_verification pw w).2 = w_fs w /\
  msg_error e ∈ new_stdout pw w /\
  msg_error e = "An error occurred during Playwright execution: " +:+ exn_str e.
Proof.
  intros Htry Hfail.
  destruct (failed_wait_skips_capture pw w (Exc e) Htry Hfail)
    as (Hshot & Hfs & _ & Hmsg).
  split; [exact Hshot|]. split; [exact Hfs|].
  split; [apply (Hmsg e eq_refl)|reflexivity].
Qed.

(** The marker never shows: no file, one line of diagnosis. *)
Lemma missing_marker_witness :
  reaches_try pw_no_marker /\
  navigation_or_wait_raises pw_no_marker (Exc not_visible_error) /\
  w_fs (run_verification pw_no_marker w0).2 = w_fs w0 /\
  "An error occurred during Playwright execution: Locator expected to be visible"
    ∈ new_stdout pw_no_marker w0.
Proof.
  assert (Htry : reaches_try pw_no_marker) by (repeat split).
  assert (Hfail : navigation_or_wait_raises pw_no_marker (Exc not_visible_error))
    by (right; split; reflexivity).
  split; [exact Htry|]. split; [exact Hfail|].
  destruct (failed_navigation_or_wait_leaves_no_screenshot pw_no_marker w0
              not_visible_error Htry Hfail) as (_ & Hfs & Hmsg & _).
  split; [exact Hfs | exact Hmsg].
Defined.

(** ** Progress messages *)



(** ** Repeated runs *)

(** The run in which everything succeeds, in full. *)
Lemma happy_run pw w img :
  happy_path pw img ->
  run_verification pw w =
    (Ok tt,
     {| w_calls := w_calls w ++ calls_up_to_capture ++
                   [CallPrint msg_captured; CallClose; CallPrint msg_closed; CallExit];
        w_stdout := w_stdout w ++ [msg_capturing; msg_captured; msg_closed];
        w_fs := save_image landing_shot img (w_fs w);
        w_browser := Closed |}).
Proof. run_cases. reflexivity. Qed.



(** ** The session does not start *)

(** X1.  When entering the session raises, the run stops there: the
    exception goes to the caller, no other call is issued (no launch, no
    close, no session exit), nothing is printed and no file changes. *)
Theorem session_enter_failure_stops_run pw w r :
  pw_enter pw = Raise r ->
  (run_verification pw w).1 = Raise r /\
  new_calls pw w = [CallEnter] /\
  new_stdout pw w = [] /\
  w_fs (run_verification pw w).2 = w_fs w /\
  exit_status (main pw w).1 <> 0.
Proof.
  run_cases; repeat split; first [ reflexivity | discriminate ].
Qed.

(** The driver cannot be started. *)
Lemma session_enter_failure_witness :
  pw_enter pw_enter_fails = Raise (Exc (Exception "Driver not found")) /\
  new_calls pw_enter_fails w0 = [CallEnter].
Proof.
  split; [reflexivity|].
  exact (proj1 (proj2 (session_enter_failure_stops_run pw_enter_fails w0
                         (Exc (Exception "Driver not found")) eq_refl))).
Defined.

(** ** An interrupt inside the [try] block *)

(** X2.  A [KeyboardInterrupt] raised by the navigation, the wait or the
    capture is not handled: no handler line is printed, the [finally]
    block still calls [browser.close()], and the run never returns
    normally; when the cleanup returns, the interrupt itself reaches the
    caller and the process exits with 130. *)
Theorem interrupt_in_try_is_not_handled pw w :
  reaches_try pw ->
  body_raises pw = Some KeyboardInterrupt ->
  (forall e, msg_error e ∉ new_stdout pw w) /\
  (forall e, CallPrint (msg_error e) ∉ new_calls pw w) /\
  CallClose ∈ new_calls pw w /\
  (exists r, (run_verification pw w).1 = Raise r) /\
  (pw_close pw = Ok tt -> pw_exit pw = Ok tt ->
     (run_verification pw w).1 = Raise KeyboardInterrupt /\
     exit_status (main pw w).1 = 130).
Proof.
  intros Htry Hbody.
  split; [intros e|split; [intros e|split; [|split]]].
  all: revert Htry Hbody; run_cases.
  all: first [ not_in_calls | in_calls | by eexists | by split ].
Qed.

(** The user interrupts the navigation. *)
Lemma interrupt_in_try_witness :
  reaches_try pw_interrupted /\
  body_raises pw_interrupted = Some KeyboardInterrupt /\
  new_stdout pw_interrupted w0 = [msg_closed] /\
  exit_status (main pw_interrupted w0).1 = 130.
Proof.
  assert (Htry : reaches_try pw_interrupted) by (repeat split).
  split; [exact Htry|]. split; [reflexivity|]. split; [reflexivity|].
  destruct (interrupt_in_try_is_not_handled pw_interrupted w0 Htry eq_refl)
    as (_ & _ & _ & _ & H).
  exact (proj2 (H eq_refl eq_refl)).
Defined.

(** ** Failures of the cleanup *)

(** X3.  When [browser.close()] raises, the line [Browser closed.] is
    not printed and the run raises even if the body of the [try] block
    succeeded; what the close raised replaces a [KeyboardInterrupt] of
    the body, and it is what reaches the caller whenever the session
    exit returns.  A screenshot the body has saved stays on disk. *)
Theorem close_failure_surfaces pw w r :
  reaches_try pw ->
  pw_close pw = Raise r ->
  (msg_closed ∉ new_stdout pw w) /\
  (exists r', (run_verification pw w).1 = Raise r') /\
  (pw_exit pw = Ok tt -> (run_verification pw w).1 = Raise r) /\
  (forall img, body_raises pw = None -> pw_screenshot pw landing_shot = Ok img ->
     fs_files (w_fs (run_verification pw w).2) !! screenshot_path = Some img).
Proof.
  pose proof msg_error_not_progress as Hmsg.
  intros Htry Hclose.
  split; [|split; [|split; [|intros img]]].
  all: revert Htry Hclose; run_cases.
  all: first [ by eexists | reflexivity | discriminate
             | simplify_eq; apply lookup_insert_eq
             | idtac ].
  all: repeat (apply not_elem_of_cons; split;
               [ first [ discriminate
                       | intros E; symmetry in E; revert E; apply Hmsg ] | ]);
       apply not_elem_of_nil.
Qed.

(** Everything succeeds but the close: the run raises, the image is
    there. *)
Lemma close_failure_witness :
  reaches_try pw_close_fails /\
  (run_verification pw_close_fails w0).1 = Raise (Exc (Exception "Connection closed")) /\
  fs_files (w_fs (run_verification pw_close_fails w0).2) !! screenshot_path = Some png.
Proof.
  assert (Htry : reaches_try pw_close_fails) by (repeat split).
  destruct (close_failure_surfaces pw_close_fails w0
              (Exc (Exception "Connection closed")) Htry eq_refl)
    as (_ & _ & Hr & Hfs).
  split; [exact Htry|]. split; [exact (Hr eq_refl)|].
  exact (Hfs png eq_refl eq_refl).
Defined.

(** X4.  When leaving the session raises, that exception is what the
    caller gets, whatever happened before: it replaces the exception of
    the launch, of the page, of the close and an interrupt of the body,
    and it turns a run that would have returned into a failure. *)
Theorem session_exit_failure_surfaces pw w r :
  pw_enter pw = Ok Session ->
  pw_exit pw = Raise r ->
  (run_verification pw w).1 = Raise r /\
  exit_status (main pw w).1 <> 0 /\
  [CallExit] `suffix_of` new_calls pw w.
Proof.
  intros Henter Hexit.
  split; [|split]; revert Henter Hexit; run_cases.
  all: first [ reflexivity | discriminate | solve_suffix ].
Qed.

(** The marker never shows and leaving the session fails: the handler
    has printed its line, yet the run raises. *)
Lemma session_exit_failure_witness :
  pw_enter pw_exit_fails = Ok Session /\
  msg_error not_visible_error ∈ new_stdout pw_exit_fails w0 /\
  (run_verification pw_exit_fails w0).1 = Raise (Exc (Exception "Connection closed")).
Proof.
  split; [reflexivity|]. split; [vm_compute; in_calls|].
  exact (proj1 (session_exit_failure_surfaces pw_exit_fails w0
                  (Exc (Exception "Connection closed")) eq_refl eq_refl)).
Defined.

(** The user interrupts the wait and the close fails: the caller sees
    the failure of the close, not the interrupt. *)
Example run_interrupted_close_fails :
  (run_verification pw_interrupted_close_fails w0).1 =
    Raise (Exc (Exception "Connection closed")) /\
  new_stdout pw_interrupted_close_fails w0 = [].
Proof. split; reflexivity. Qed.

(** ** What standard output tells *)

Ltac not_in_lines :=
  repeat (apply not_elem_of_cons; split;
          [ first [ discriminate
                  | let E := fresh in
                    intros E; symmetry in E; revert E; apply msg_error_not_progress
                  | apply msg_error_not_progress ] | ]);
  apply not_elem_of_nil.

(** The handler's line tells which exception it reports. *)
Lemma msg_error_inj e e' : msg_error e = msg_error e' -> e = e'.
Proof.
  destruct e as [s], e' as [s']. unfold msg_error. simpl.
  intros H. apply String.app_inj in H. by subst.
Qed.



(** X7.  The handler's text for [e] is printed exactly when the [try]
    block was reached and its body raised [e]; every call of [print] in
    a run prints one of the three fixed texts or that handler text
    (which holds [str(e)] and so may span several lines), and a run
    calls [print] at most three times. *)
Theorem handler_text_iff_body_raised pw w :
  (forall e, msg_error e ∈ new_stdout pw w <->
     reaches_try pw /\ body_raises pw = Some (Exc e)) /\
  (forall l, l ∈ new_stdout pw w ->
     l = msg_capturing \/ l = msg_captured \/ l = msg_closed \/
     exists e, body_raises pw = Some (Exc e) /\ l = msg_error e) /\
  (length (new_stdout pw w) <= 3)%nat.
Proof.
  split; [intros e|split; [intros l|]].
  - run_cases; (split; [intros Hin | intros ((? & ? & ?) & ?)]).
    all: first [ discriminate
               | exfalso; revert Hin; not_in_lines
               | simplify_eq; in_calls
               | idtac ].
    all: split; [by repeat split|].
    all: apply list_elem_of_In in Hin; simpl in Hin.
    all: repeat (destruct Hin as [Hin|Hin];
                 [ first [ by apply msg_error_inj in Hin; subst
                         | exfalso; revert Hin; apply msg_error_not_progress
                         | exfalso; symmetry in Hin; revert Hin;
                           apply msg_error_not_progress ] | ]);
           destruct Hin.
  - run_cases_goal; intros Hin; apply list_elem_of_In in Hin; simpl in Hin.
    all: repeat (destruct Hin as [<-|Hin]; [eauto 6|]); destruct Hin.
  - run_cases; simpl; lia.
Qed.

(** ** What a run does to the file system *)

(** A run that does not get as far as the capture writes nothing. *)
Lemma run_without_capture_keeps_fs pw w :
  ~ reaches_try pw \/ (exists r, navigation_or_wait_raises pw r) ->
  w_fs (run_verification pw w).2 = w_fs w.
Proof.
  intros [H|(r & [H|[H1 H2]])].
  - revert H. run_cases;
      first [ reflexivity | exfalso; apply H; by repeat split ].
  - revert H. run_cases; reflexivity.
  - revert H1 H2. run_cases; reflexivity.
Qed.

(** X9.  A run that fails before it asks for the screenshot (the [try]
    block is not reached, or the navigation or the wait raises) leaves
    the file system as it found it.  So when it follows a successful
    run, the image of the successful run is still at the screenshot
    path: the file being there does not tell that the last run
    succeeded. *)
Theorem failed_run_keeps_earlier_screenshot pw1 pw2 w img1 :
  happy_path pw1 img1 ->
  ~ reaches_try pw2 \/ (exists r, navigation_or_wait_raises pw2 r) ->
  w_fs (run_twice pw1 pw2 w).2 = w_fs (run_verification pw1 w).2 /\
  fs_files (w_fs (run_twice pw1 pw2 w).2) !! screenshot_path = Some img1.
Proof.
  intros H1 H2. unfold run_twice.
  rewrite (run_without_capture_keeps_fs pw2 _ H2).
  split; [reflexivity|].
  rewrite (happy_run pw1 w img1 H1). apply lookup_insert_eq.
Qed.

(** A successful run, then a run in which the marker never shows. *)
Lemma failed_run_keeps_earlier_screenshot_witness :
  happy_path (pw_ok png) png /\
  navigation_or_wait_raises pw_no_marker (Exc not_visible_error) /\
  (run_twice (pw_ok png) pw_no_marker w0).1 = Ok tt /\
  fs_files (w_fs (run_twice (pw_ok png) pw_no_marker w0).2) !! screenshot_path
    = Some png.
Proof.
  assert (H1 : happy_path (pw_ok png) png) by (repeat split).
  assert (H2 : navigation_or_wait_raises pw_no_marker (Exc not_visible_error))
    by (right; split; reflexivity).
  split; [exact H1|]. split; [exact H2|]. split; [reflexivity|].
  exact (proj2 (failed_run_keeps_earlier_screenshot (pw_ok png) pw_no_marker w0
                  png H1 (or_intror (ex_intro _ _ H2)))).
Defined.

(** A capture that fails while it saves is another matter: after a
    successful run, a run on a full disk leaves an empty file where the
    image was. *)
Example run_disk_full_after_ok :
  (run_twice (pw_ok png) pw_disk_full w0).1 = Ok tt /\
  fs_files (w_fs (run_twice (pw_ok png) pw_disk_full w0).2) !! screenshot_path
    = Some [].
Proof. split; reflexivity. Qed.
